(** * GenericPrometheusCheck: the endpoint-to-configuration coordinator

    A shallow embedding of
    [datadog_checks/checks/prometheus/base_check.py]: the class
    [GenericPrometheusCheck], its configuration map, its two
    configuration errors, and the three metric submission paths with
    their tag computation.

    The class inherits from two collaborators whose code is elsewhere:
    [PrometheusScraperMixin] ([create_mixin_configuration], [process])
    and [AgentCheck] (the constructor, [rate], [gauge],
    [monotonic_count], [service_check]).  They are taken as an
    arbitrary interface over an abstract external world; every call
    this layer makes to them is recorded, in order, in a call log.
    A collaborator changes the world only: [config_map],
    [default_instances] and [default_namespace] are written by this
    file alone. *)

From Stdlib Require Import String List ZArith.
From stdpp Require Import base strings list gmap fin_maps.

Local Open Scope string_scope.
Local Open Scope list_scope.

(** ** Python values that reach this layer *)

(** Values of an instance record read from YAML: the minimal example
    configuration of the class docstring uses a string
    ([prometheus_url], [namespace]) and a list of strings ([metrics]);
    [PyNone] is YAML's null. *)
Inductive pyval :=
| PyNone
| PyStr (s : string)
| PyList (l : list string).

(** An instance record, [init_config] and [agentConfig] are dicts with
    string keys. *)
Abbreviation dict := (gmap string pyval).

(** Exceptions.  [CheckException] is the one this file raises itself
    (lines 49 and 53); [TypeError] is what the interpreter raises on a
    call with too few arguments, on subscripting [None] or a list with a
    string, on iterating [None] and on hashing a list; [ExternalError]
    stands for whatever else a collaborator raises. *)
Inductive exn :=
| CheckException (msg : string)
| TypeError (msg : string)
| ExternalError (msg : string).

Inductive result (A : Type) :=
| Ok (a : A)
| Raise (e : exn).
Arguments Ok {A} a.
Arguments Raise {A} e.

(** Modelled from the spec: the scraper configuration returned by the
    mixin's [create_mixin_configuration], which is not part of this
    file.  The spec's data model lists its options; this layer reads
    the first four. *)
Record scraper_config := ScraperConfig {
  metrics_mapper : gmap string string;
  custom_tags : list string;
  exclude_labels : list string;
  labels_mapper : gmap string string;
  namespace : string;
  prometheus_url : string
}.

(** A decoded sample: [metric.label] is a sequence of name/value
    pairs. *)
Module Label.
Record t := Build { name : string; value : string }.
End Label.

Record metric := Metric { label : list Label.t }.

Inductive submission_kind := Rate | Gauge | MonotonicCount.

(** What is passed in the fourth position of [_submit_rate],
    [_submit_gauge] and [_submit_monotonic_count].  The parameter is
    called [custom_tags], defaults to [None] and is documented as an
    array of tags; [_metric_tags] receives it as [scraper_config]. *)
Inductive tags_argument :=
| ArgNone
| ArgTags (tags : list string)
| ArgConfig (cfg : scraper_config).

(** The coordinator object: the attributes of [self] this file reads
    and writes.  [NAMESPACE] is set by the mixin. *)
Record coordinator := Coordinator {
  config_map : gmap string scraper_config;
  default_instances : gmap string dict;
  default_namespace : option string;
  NAMESPACE : string
}.

Section Model.

(** The state of the collaborators (mixin internals, the network, the
    agent) and the type of a sample's numeric value, which this layer
    only forwards. *)
Context {World Val : Type}.

(** Calls made to the collaborators. *)
Inductive call :=
| CallAgentInit (name : string) (init_config agentConfig : dict)
                (instances : option (list dict))
| CallCreate (instance : dict) (defaults : gmap string dict)
             (default_ns : option string)
| CallProcess (endpoint : string) (cfg : scraper_config)
              (ignore_unmapped : bool)
| CallSubmit (kind : submission_kind) (metric_name : string) (val : Val)
             (tags : list string) (hostname : option string)
| CallServiceCheck (args : list pyval) (kwargs : dict).

(** The collaborators: each may change the world and may raise. *)
Class Collaborators := {
  agent_check_init :
    string -> dict -> dict -> option (list dict) ->
    World -> result unit * World;
  create_mixin_configuration :
    dict -> gmap string dict -> option string ->
    World -> result scraper_config * World;
  process :
    string -> scraper_config -> bool -> World -> result unit * World;
  host_submit :
    submission_kind -> string -> Val -> list string -> option string ->
    World -> result unit * World;
  service_check :
    list pyval -> dict -> World -> result unit * World
}.

(** The override point of the class: a subclass supplies its own
    [_finalize_tags_to_submit]. *)
Class Overrides := {
  finalize_tags_hook :
    list string -> string -> Val -> metric -> option (list string) ->
    option string -> result (list string)
}.

Record machine := Machine {
  self : coordinator;
  world : World;
  calls : list call
}.

(** Computations: state passing over the machine; an exception keeps
    the state reached when it was raised. *)
Definition M (A : Type) : Type := machine -> result A * machine.

Definition ret {A} (a : A) : M A := fun m => (Ok a, m).

Definition raise {A} (e : exn) : M A := fun m => (Raise e, m).

Definition bind {A B} (c : M A) (k : A -> M B) : M B :=
  fun m =>
    match c m with
    | (Ok a, m') => k a m'
    | (Raise e, m') => (Raise e, m')
    end.

Definition lift_result {A} (r : result A) : M A := fun m => (r, m).

Definition get_self : M coordinator := fun m => (Ok (self m), m).

Definition set_config_map (cm : gmap string scraper_config) : M unit :=
  fun m =>
    (Ok tt,
     Machine (Coordinator cm (default_instances (self m))
                          (default_namespace (self m)) (NAMESPACE (self m)))
             (world m) (calls m)).

Definition set_default_instances (d : gmap string dict) : M unit :=
  fun m =>
    (Ok tt,
     Machine (Coordinator (config_map (self m)) d
                          (default_namespace (self m)) (NAMESPACE (self m)))
             (world m) (calls m)).

Definition set_default_namespace (d : option string) : M unit :=
  fun m =>
    (Ok tt,
     Machine (Coordinator (config_map (self m)) (default_instances (self m))
                          d (NAMESPACE (self m)))
             (world m) (calls m)).

(** A call to a collaborator: logged, then answered by the world. *)
Definition extern {A} (c : call) (f : World -> result A * World) : M A :=
  fun m =>
    let '(r, w) := f (world m) in
    (r, Machine (self m) w (calls m ++ [c])).

(** What a run from [before] to [after] appended to the call log. *)
Definition added (before after : machine) : list call :=
  drop (length (calls before)) (calls after).

End Model.

Arguments call : clear implicits.
Arguments machine : clear implicits.
Arguments Collaborators : clear implicits.
Arguments Overrides : clear implicits.
Arguments M : clear implicits.

Declare Scope check_scope.
Delimit Scope check_scope with check.
Notation "x <- c ;; k" := (bind c (fun x => k))
  (at level 100, c at next level, right associativity) : check_scope.
Notation "c ;; k" := (bind c (fun _ => k))
  (at level 100, right associativity) : check_scope.

(** ** The class [GenericPrometheusCheck] *)

Section Defaults.

Context {Val : Type}.

(** [_finalize_tags_to_submit] as the class defines it (lines 121-126). *)
Definition _finalize_tags_to_submit
    (_tags : list string) (metric_name : string) (val : Val) (mt : metric)
    (custom_tags : option (list string)) (hostname : option string)
  : list string :=
  _tags.

(** The class itself, with nothing overridden. *)
Definition base_class : Overrides Val :=
  {| finalize_tags_hook := fun _tags metric_name val mt custom_tags hostname =>
       Ok (_finalize_tags_to_submit _tags metric_name val mt
                                    custom_tags hostname) |}.

(** A subclass whose hook appends one fixed tag to the list it is
    given. *)
Definition appending_subclass (extra : string) : Overrides Val :=
  {| finalize_tags_hook := fun _tags _ _ _ _ _ => Ok (_tags ++ [extra]) |}.

End Defaults.

(** Positional arguments of a call to [get_scraper_config]: the source
    has a call with one (line 44) and a call with two (line 51). *)
Inductive positional :=
| Args1 (a : dict)
| Args2 (endpoint : string) (instance : dict).

(** Calls a host can make on a constructed coordinator. *)
Inductive method_call {Val : Type} :=
| DoCheck (instance : dict)
| DoGetScraperConfig (endpoint : string) (instance : dict)
| DoSubmit (kind : submission_kind) (metric_name : string) (val : Val)
           (mt : metric) (custom_tags : tags_argument)
           (hostname : option string)
| DoServiceCheck (args : list pyval) (kwargs : dict).
Arguments method_call : clear implicits.

Section Methods.

Context {World Val : Type}.
Context {collab : Collaborators World Val} {subclass : Overrides Val}.

Local Open Scope check_scope.
Local Abbreviation M := (M World Val).

(** *** Logged calls to the collaborators *)

Definition super_init (name : string) (init_config agentConfig : dict)
    (instances : option (list dict)) : M unit :=
  extern (CallAgentInit name init_config agentConfig instances)
         (agent_check_init name init_config agentConfig instances).

Definition create_mixin_config (instance : dict)
    (defaults : gmap string dict) (default_ns : option string)
  : M scraper_config :=
  extern (CallCreate instance defaults default_ns)
         (create_mixin_configuration instance defaults default_ns).

Definition process_pass (endpoint : string) (cfg : scraper_config)
    (ignore_unmapped : bool) : M unit :=
  extern (CallProcess endpoint cfg ignore_unmapped)
         (process endpoint cfg ignore_unmapped).

Definition host_primitive (kind : submission_kind) (metric_name : string)
    (val : Val) (tags : list string) (hostname : option string) : M unit :=
  extern (CallSubmit kind metric_name val tags hostname)
         (host_submit kind metric_name val tags hostname).

Definition rate := host_primitive Rate.
Definition gauge := host_primitive Gauge.
Definition monotonic_count := host_primitive MonotonicCount.

(** *** [get_scraper_config] (lines 61-71) *)

Definition get_scraper_config (endpoint : string) (instance : dict)
  : M scraper_config :=
  me <- get_self;;
  match config_map me !! endpoint with
  | Some cached => ret cached
  | None =>
      config <- create_mixin_config instance (default_instances me)
                                    (default_namespace me);;
      me' <- get_self;;
      set_config_map (<[endpoint := config]> (config_map me'));;
      ret config
  end.

(** The interpreter binds the positional arguments to the two
    parameters [endpoint] and [instance] before the body runs. *)
Definition call_get_scraper_config (args : positional) : M scraper_config :=
  match args with
  | Args2 endpoint instance => get_scraper_config endpoint instance
  | Args1 _ =>
      raise (TypeError
        "get_scraper_config() missing 1 required positional argument: 'instance'")
  end.

(** *** [check] (lines 46-59) *)

Definition check (instance : dict) : M unit :=
  match default PyNone (instance !! "prometheus_url") with
  | PyNone =>
      raise (CheckException "Unable to find prometheus URL in config file.")
  | PyList _ =>
      (* [endpoint in self.config_map] hashes the key (line 63) *)
      raise (TypeError "unhashable type: 'list'")
  | PyStr endpoint =>
      scraper_config <- call_get_scraper_config (Args2 endpoint instance);;
      if decide (metrics_mapper scraper_config = ∅) then
        raise (CheckException
          ("You have to collect at least one metric from the endpoint: "
             +:+ endpoint))
      else
        process_pass endpoint scraper_config true
  end.

(** *** [__init__] (lines 36-44) *)

Fixpoint setup_config_map (instances : list dict) : M unit :=
  match instances with
  | [] => ret tt
  | instance :: rest =>
      call_get_scraper_config (Args1 instance);;
      setup_config_map rest
  end.

Definition __init__ (name : string) (init_config agentConfig : dict)
    (instances : option (list dict)) (defaults : gmap string dict)
    (default_ns : option string) : M unit :=
  super_init name init_config agentConfig instances;;
  set_config_map ∅;;
  set_default_instances defaults;;
  set_default_namespace default_ns;;
  match instances with
  | None => raise (TypeError "'NoneType' object is not iterable")
  | Some l => setup_config_map l
  end.

(** *** [_metric_tags] (lines 107-116) *)

(** The loop over [metric.label], appending to [_tags]. *)
Fixpoint label_tags (cfg : scraper_config) (labels : list Label.t)
    (_tags : list string) : list string :=
  match labels with
  | [] => _tags
  | l :: rest =>
      if decide (Label.name l ∈ exclude_labels cfg) then
        label_tags cfg rest _tags
      else
        let tag_name :=
          match labels_mapper cfg !! Label.name l with
          | Some mapped => mapped
          | None => Label.name l
          end in
        label_tags cfg rest (_tags ++ [tag_name +:+ ":" +:+ Label.value l])
  end.

Definition _metric_tags (metric_name : string) (val : Val) (mt : metric)
    (scraper_config : tags_argument) (hostname : option string)
  : result (list string) :=
  match scraper_config with
  | ArgNone => Raise (TypeError "'NoneType' object is not subscriptable")
  | ArgTags _ =>
      Raise (TypeError "list indices must be integers or slices, not str")
  | ArgConfig cfg =>
      let custom := custom_tags cfg in
      let _tags := label_tags cfg (label mt) custom in
      finalize_tags_hook _tags metric_name val mt (Some custom) hostname
  end.

(** *** The submission paths (lines 73-105, 118-119) *)

Definition namespaced (metric_name : string) : M string :=
  me <- get_self;;
  ret (NAMESPACE me +:+ "." +:+ metric_name).

Definition _submit_rate (metric_name : string) (val : Val) (mt : metric)
    (custom_tags : tags_argument) (hostname : option string) : M unit :=
  _tags <- lift_result (_metric_tags metric_name val mt custom_tags hostname);;
  full_name <- namespaced metric_name;;
  rate full_name val _tags hostname.

Definition _submit_gauge (metric_name : string) (val : Val) (mt : metric)
    (custom_tags : tags_argument) (hostname : option string) : M unit :=
  _tags <- lift_result (_metric_tags metric_name val mt custom_tags hostname);;
  full_name <- namespaced metric_name;;
  gauge full_name val _tags hostname.

Definition _submit_monotonic_count (metric_name : string) (val : Val)
    (mt : metric) (custom_tags : tags_argument) (hostname : option string)
  : M unit :=
  _tags <- lift_result (_metric_tags metric_name val mt custom_tags hostname);;
  full_name <- namespaced metric_name;;
  monotonic_count full_name val _tags hostname.

Definition _submit_service_check (args : list pyval) (kwargs : dict)
  : M unit :=
  extern (CallServiceCheck args kwargs) (service_check args kwargs).

(** *** A coordinator in use *)

Definition submit (kind : submission_kind) :=
  match kind with
  | Rate => _submit_rate
  | Gauge => _submit_gauge
  | MonotonicCount => _submit_monotonic_count
  end.

(** One call from the host; the host catches what it raises and keeps
    the coordinator. *)
Definition serve (c : method_call Val) (m : machine World Val)
  : machine World Val :=
  match c with
  | DoCheck instance => snd (check instance m)
  | DoGetScraperConfig endpoint instance =>
      snd (get_scraper_config endpoint instance m)
  | DoSubmit kind metric_name val mt custom_tags hostname =>
      snd (submit kind metric_name val mt custom_tags hostname m)
  | DoServiceCheck args kwargs => snd (_submit_service_check args kwargs m)
  end.

Definition serve_all (cs : list (method_call Val)) (m : machine World Val)
  : machine World Val :=
  fold_left (fun acc c => serve c acc) cs m.

(** How many times the scrape-and-process pass, respectively the
    configuration builder, appears in a call log. *)
Definition is_process (c : call Val) : bool :=
  match c with CallProcess _ _ _ => true | _ => false end.

Definition is_create (c : call Val) : bool :=
  match c with CallCreate _ _ _ => true | _ => false end.

Definition is_submit (c : call Val) : bool :=
  match c with CallSubmit _ _ _ _ _ => true | _ => false end.

Definition count_calls (p : call Val -> bool) (log : list (call Val)) : nat :=
  length (filter (fun c => p c = true) log).

(** The outcomes of [get_scraper_config]: the stored configuration; a
    configuration built and stored; the exception of the builder. *)
Inductive get_outcome (endpoint : string) (instance : dict)
    (m : machine World Val)
  : result scraper_config -> machine World Val -> Prop :=
| GetHit cfg :
    config_map (self m) !! endpoint = Some cfg ->
    get_outcome endpoint instance m (Ok cfg) m
| GetBuilt cfg w :
    config_map (self m) !! endpoint = None ->
    get_outcome endpoint instance m (Ok cfg)
      (Machine (Coordinator (<[endpoint := cfg]> (config_map (self m)))
                            (default_instances (self m))
                            (default_namespace (self m)) (NAMESPACE (self m)))
               w
               (calls m ++ [CallCreate instance (default_instances (self m))
                                       (default_namespace (self m))]))
| GetFailed e w :
    config_map (self m) !! endpoint = None ->
    get_outcome endpoint instance m (Raise e)
      (Machine (self m) w
               (calls m ++ [CallCreate instance (default_instances (self m))
                                       (default_namespace (self m))])).

End Methods.

(** Endpoints a sequence of host calls asks a configuration for. *)
Definition requested {Val : Type} (c : method_call Val) : gset string :=
  match c with
  | DoCheck instance =>
      match instance !! "prometheus_url" with
      | Some (PyStr endpoint) => {[ endpoint ]}
      | _ => ∅
      end
  | DoGetScraperConfig endpoint _ => {[ endpoint ]}
  | _ => ∅
  end.

Definition requested_all {Val : Type} (cs : list (method_call Val))
  : gset string :=
  ⋃ (requested <$> cs).

(** ** A scripted set of collaborators

    Used to run the class on concrete inputs.  The world counts the
    configurations built so far, so that two builds never return the
    same configuration; the builder maps every name listed under
    [metrics] to itself, as the minimal example configuration of the
    class docstring suggests. *)
Module Scripted.

Definition mapper_of (instance : dict) : gmap string string :=
  match instance !! "metrics" with
  | Some (PyList names) => list_to_map ((fun n => (n, n)) <$> names)
  | _ => ∅
  end.

Definition text_of (instance : dict) (key : string) : string :=
  match instance !! key with
  | Some (PyStr s) => s
  | _ => ""
  end.

Definition build (instance : dict) (built : nat) : scraper_config :=
  {| metrics_mapper := mapper_of instance;
     custom_tags := replicate built "rebuilt";
     exclude_labels := [];
     labels_mapper := ∅;
     namespace := text_of instance "namespace";
     prometheus_url := text_of instance "prometheus_url" |}.

Definition collaborators : Collaborators nat Z :=
  {| agent_check_init := fun _ _ _ _ w => (Ok tt, w);
     create_mixin_configuration := fun instance _ _ w =>
       (Ok (build instance w), S w);
     process := fun _ _ _ w => (Ok tt, w);
     host_submit := fun _ _ _ _ _ w => (Ok tt, w);
     service_check := fun _ _ w => (Ok tt, w) |}.

Definition url : string := "http://foobar/endpoint".

(** The minimal example configuration of the class docstring. *)
Definition foobar : dict :=
  {[ "prometheus_url" := PyStr url;
     "namespace" := PyStr "foobar";
     "metrics" := PyList ["bar"; "foo"] ]}.

(** The same endpoint with nothing to collect, and a record without
    the endpoint. *)
Definition foobar_no_metrics : dict :=
  {[ "prometheus_url" := PyStr url;
     "namespace" := PyStr "foobar" ]}.

Definition no_url : dict :=
  {[ "namespace" := PyStr "foobar"; "metrics" := PyList ["bar"; "foo"] ]}.

(** A constructed coordinator that has served nothing yet. *)
Definition fresh (ns : string) : machine nat Z :=
  Machine (Coordinator ∅ ∅ None ns) 0 [].

(** The sample and the configuration of the spec's tag example. *)
Definition sample : metric :=
  Metric [Label.Build "instance" "a"; Label.Build "job" "x"].

Definition tagging : scraper_config :=
  {| metrics_mapper := {[ "up" := "up" ]};
     custom_tags := ["env:prod"];
     exclude_labels := ["job"];
     labels_mapper := {[ "instance" := "host" ]};
     namespace := "foo";
     prometheus_url := url |}.

End Scripted.

(** ** Notions used to state what the class keeps *)

(** The tag one label contributes, if any: the body of the loop of
    [_metric_tags] (lines 111-115) as a function of the label alone.
    [label_tags] is compared with it below. *)
Definition label_tag (cfg : scraper_config) (l : Label.t) : option string :=
  if decide (Label.name l ∈ exclude_labels cfg) then None
  else Some (default (Label.name l) (labels_mapper cfg !! Label.name l)
               +:+ ":" +:+ Label.value l).

(** A logged scrape-and-process pass is sound for a coordinator when it
    ignores unmapped metrics and runs on the configuration stored for
    its endpoint, which maps at least one metric. *)
Definition sound_pass {Val : Type} (me : coordinator) (c : call Val) : Prop :=
  match c with
  | CallProcess endpoint cfg ignore_unmapped =>
      ignore_unmapped = true /\
      config_map me !! endpoint = Some cfg /\
      metrics_mapper cfg <> ∅
  | _ => True
  end.

(** A subclass whose hook raises. *)
Definition raising_subclass {Val : Type} (e : exn) : Overrides Val :=
  {| finalize_tags_hook := fun _ _ _ _ _ _ => Raise e |}.

(** Collaborators that refuse: the builder and the host primitives
    raise, the rest behaves as in [Scripted]. *)
Module Refusing.

Definition collaborators : Collaborators nat Z :=
  {| agent_check_init := fun _ _ _ _ w => (Ok tt, w);
     create_mixin_configuration := fun _ _ _ w =>
       (Raise (CheckException "no namespace"), S w);
     process := fun _ _ _ w => (Ok tt, w);
     host_submit := fun _ _ _ _ _ w =>
       (Raise (ExternalError "aggregator closed"), S w);
     service_check := fun _ _ w => (Ok tt, w) |}.

End Refusing.

(** * Properties *)

Section Properties.

Context {World Val : Type}.
Context {collab : Collaborators World Val} {subclass : Overrides Val}.

Local Open Scope check_scope.

Implicit Types (m : machine World Val) (instance : dict) (endpoint : string).
Implicit Types (cfg : scraper_config) (cs : list (method_call Val)).

(** ** The monad and the call log *)

Lemma extern_self {A} (c : call Val) (f : World -> result A * World) m :
  self (snd (extern c f m)) = self m.
Proof. unfold extern. destruct (f (world m)); reflexivity. Qed.

Lemma extern_calls {A} (c : call Val) (f : World -> result A * World) m :
  calls (snd (extern c f m)) = calls m ++ [c].
Proof. unfold extern. destruct (f (world m)); reflexivity. Qed.

Lemma count_calls_app (p : call Val -> bool) (l1 l2 : list (call Val)) :
  count_calls p (l1 ++ l2) = count_calls p l1 + count_calls p l2.
Proof. unfold count_calls. rewrite filter_app, length_app. reflexivity. Qed.

Lemma count_calls_one (p : call Val -> bool) (c : call Val) :
  count_calls p [c] = if p c then 1 else 0.
Proof.
  unfold count_calls. rewrite filter_cons, filter_nil.
  destruct (p c); case_decide; simpl; congruence.
Qed.

(** ** [get_scraper_config] *)

(** A hit returns the stored configuration and leaves the machine, call
    log included, as it was. *)
Lemma get_scraper_config_hit endpoint instance cfg m :
  config_map (self m) !! endpoint = Some cfg ->
  get_scraper_config endpoint instance m = (Ok cfg, m).
Proof.
  intros Hhit. unfold get_scraper_config, bind, get_self, ret.
  rewrite Hhit. reflexivity.
Qed.

(** A miss calls the builder once; what it returns is stored under the
    endpoint and returned. *)
Lemma get_scraper_config_miss endpoint instance cfg w m :
  config_map (self m) !! endpoint = None ->
  create_mixin_configuration instance (default_instances (self m))
    (default_namespace (self m)) (world m) = (Ok cfg, w) ->
  get_scraper_config endpoint instance m =
    (Ok cfg,
     Machine (Coordinator (<[endpoint := cfg]> (config_map (self m)))
                          (default_instances (self m))
                          (default_namespace (self m)) (NAMESPACE (self m)))
             w
             (calls m ++ [CallCreate instance (default_instances (self m))
                                     (default_namespace (self m))])).
Proof.
  intros Hmiss Hbuild.
  unfold get_scraper_config, bind, get_self, ret, create_mixin_config, extern,
    set_config_map.
  rewrite Hmiss, Hbuild. reflexivity.
Qed.

(** A miss on which the builder raises stores nothing. *)
Lemma get_scraper_config_miss_raise endpoint instance e w m :
  config_map (self m) !! endpoint = None ->
  create_mixin_configuration instance (default_instances (self m))
    (default_namespace (self m)) (world m) = (Raise e, w) ->
  get_scraper_config endpoint instance m =
    (Raise e,
     Machine (self m) w
             (calls m ++ [CallCreate instance (default_instances (self m))
                                     (default_namespace (self m))])).
Proof.
  intros Hmiss Hbuild.
  unfold get_scraper_config, bind, get_self, ret, create_mixin_config, extern.
  rewrite Hmiss, Hbuild. reflexivity.
Qed.

(** The three outcomes are the only ones. *)
Lemma get_scraper_config_outcome endpoint instance m :
  get_outcome endpoint instance m
    (fst (get_scraper_config endpoint instance m))
    (snd (get_scraper_config endpoint instance m)).
Proof.
  destruct (config_map (self m) !! endpoint) as [cfg|] eqn:Hlook.
  - rewrite (get_scraper_config_hit _ _ _ _ Hlook). simpl. now constructor.
  - destruct (create_mixin_configuration instance (default_instances (self m))
                (default_namespace (self m)) (world m)) as [[cfg|e] w] eqn:Hb.
    + rewrite (get_scraper_config_miss _ _ _ _ _ Hlook Hb). simpl.
      now constructor.
    + rewrite (get_scraper_config_miss_raise _ _ _ _ _ Hlook Hb). simpl.
      now constructor.
Qed.

Lemma get_scraper_config_returns endpoint instance cfg m m' :
  get_scraper_config endpoint instance m = (Ok cfg, m') ->
  config_map (self m') !! endpoint = Some cfg.
Proof.
  intros Heq. pose proof (get_scraper_config_outcome endpoint instance m) as Ho.
  rewrite Heq in Ho. simpl in Ho. inversion Ho; subst; simpl.
  - assumption.
  - apply lookup_insert_eq.
Qed.

(** [get_scraper_config] only appends to the call log, never a
    scrape-and-process pass and at most one build. *)
Lemma get_scraper_config_log endpoint instance m :
  exists new,
    calls (snd (get_scraper_config endpoint instance m)) = calls m ++ new /\
    count_calls is_process new = 0 /\
    count_calls is_create new <= 1.
Proof.
  destruct (get_scraper_config_outcome endpoint instance m).
  - exists []. rewrite app_nil_r. repeat split. unfold count_calls. simpl. lia.
  - eexists. simpl. split; [reflexivity|].
    rewrite !count_calls_one. simpl. split; [reflexivity | lia].
  - eexists. simpl. split; [reflexivity|].
    rewrite !count_calls_one. simpl. split; [reflexivity | lia].
Qed.

(** Entries are kept, and the only key that can appear is the endpoint
    asked for. *)
Lemma get_scraper_config_keeps endpoint instance m e cfg :
  config_map (self m) !! e = Some cfg ->
  config_map (self (snd (get_scraper_config endpoint instance m))) !! e
    = Some cfg.
Proof.
  intros Hin. destruct (get_scraper_config_outcome endpoint instance m);
    simpl; try assumption.
  rewrite lookup_insert_ne; [assumption | congruence].
Qed.

Lemma get_scraper_config_dom endpoint instance m :
  dom (config_map (self (snd (get_scraper_config endpoint instance m))))
    ⊆ dom (config_map (self m)) ∪ {[ endpoint ]}.
Proof.
  destruct (get_scraper_config_outcome endpoint instance m); simpl.
  - apply union_subseteq_l.
  - rewrite dom_insert_L, (comm_L (∪)). reflexivity.
  - apply union_subseteq_l.
Qed.

(** ** [check] *)

(** The coordinator after [check] is the coordinator after its
    [get_scraper_config], when it gets that far. *)
Lemma check_self instance m :
  self (snd (check instance m)) =
    match default PyNone (instance !! "prometheus_url") with
    | PyStr endpoint => self (snd (get_scraper_config endpoint instance m))
    | _ => self m
    end.
Proof.
  unfold check. destruct (default PyNone (instance !! "prometheus_url"));
    try reflexivity.
  simpl. unfold bind.
  destruct (get_scraper_config s instance m) as [[cfg|e] m1]; simpl;
    try reflexivity.
  case_decide; [reflexivity | apply extern_self].
Qed.

(** C1: an instance record without [prometheus_url] makes [check] raise
    the configuration error of line 49 and return the machine it was
    given: nothing is added to the call log, so neither the
    scrape-and-process pass nor the configuration builder has run, and
    the configuration map is the one before the call. *)
Theorem check_without_prometheus_url instance m :
  instance !! "prometheus_url" = None ->
  check instance m =
    (Raise (CheckException "Unable to find prometheus URL in config file."), m)
  /\ calls (snd (check instance m)) = calls m
  /\ config_map (self (snd (check instance m))) = config_map (self m).
Proof.
  intros Hurl.
  assert (check instance m =
    (Raise (CheckException "Unable to find prometheus URL in config file."), m))
    as Heq by (unfold check; rewrite Hurl; reflexivity).
  rewrite Heq. repeat split.
Qed.

(** X9: a [prometheus_url] that is present but null is reported like a
    missing one ([endpoint is None], line 48): the configuration error
    of line 49, and the machine as it was. *)
Lemma check_null_prometheus_url instance m :
  instance !! "prometheus_url" = Some PyNone ->
  check instance m =
    (Raise (CheckException "Unable to find prometheus URL in config file."), m).
Proof. intros Hurl. unfold check. rewrite Hurl. reflexivity. Qed.

(** C2: when the configuration resolved for the instance's endpoint,
    cached or just built, has an empty [metrics_mapper], [check] raises
    the configuration error of line 53 in the machine
    [get_scraper_config] left, and what the call added to the log
    contains no scrape-and-process pass. *)
Theorem check_empty_metrics_mapper instance endpoint cfg m m1 :
  instance !! "prometheus_url" = Some (PyStr endpoint) ->
  get_scraper_config endpoint instance m = (Ok cfg, m1) ->
  metrics_mapper cfg = ∅ ->
  check instance m =
    (Raise (CheckException
       ("You have to collect at least one metric from the endpoint: "
          +:+ endpoint)), m1)
  /\ exists new,
       calls (snd (check instance m)) = calls m ++ new /\
       count_calls is_process new = 0.
Proof.
  intros Hurl Hget Hempty.
  assert (check instance m =
    (Raise (CheckException
       ("You have to collect at least one metric from the endpoint: "
          +:+ endpoint)), m1)) as Heq.
  { unfold check. rewrite Hurl. simpl. unfold bind. rewrite Hget.
    rewrite decide_True by assumption. reflexivity. }
  split; [assumption|]. rewrite Heq. simpl.
  destruct (get_scraper_config_log endpoint instance m) as (new & Hlog & Hp & _).
  rewrite Hget in Hlog. simpl in Hlog. exists new. split; assumption.
Qed.

(** C6: when the instance has an endpoint and the configuration
    resolved for it has a non-empty [metrics_mapper], [check] is the
    scrape-and-process pass on that endpoint and configuration with
    [ignore_unmapped] true, run in the machine [get_scraper_config]
    left; the call adds exactly one pass to the log, whatever the pass
    returns or raises. *)
Theorem check_processes_once instance endpoint cfg m m1 :
  instance !! "prometheus_url" = Some (PyStr endpoint) ->
  get_scraper_config endpoint instance m = (Ok cfg, m1) ->
  metrics_mapper cfg <> ∅ ->
  check instance m = process_pass endpoint cfg true m1
  /\ exists new,
       calls (snd (check instance m)) = calls m ++ new /\
       filter (fun c => is_process c = true) new
         = [CallProcess endpoint cfg true].
Proof.
  intros Hurl Hget Hmapped.
  assert (check instance m = process_pass endpoint cfg true m1) as Heq.
  { unfold check. rewrite Hurl. simpl. unfold bind. rewrite Hget.
    rewrite decide_False by assumption. reflexivity. }
  split; [assumption|]. rewrite Heq. unfold process_pass.
  rewrite extern_calls.
  destruct (get_scraper_config_log endpoint instance m) as (new & Hlog & Hp & _).
  rewrite Hget in Hlog. simpl in Hlog.
  exists (new ++ [CallProcess endpoint cfg true]). split.
  - rewrite Hlog, app_assoc. reflexivity.
  - unfold count_calls in Hp. apply nil_length_inv in Hp.
    rewrite filter_app, Hp. reflexivity.
Qed.

(** [check] returns only along the path of C6. *)
Lemma check_returns_inv instance m m' :
  check instance m = (Ok tt, m') ->
  exists endpoint cfg m1,
    instance !! "prometheus_url" = Some (PyStr endpoint) /\
    get_scraper_config endpoint instance m = (Ok cfg, m1) /\
    metrics_mapper cfg <> ∅.
Proof.
  unfold check.
  destruct (instance !! "prometheus_url") as [[| endpoint | l]|]; simpl;
    try (unfold raise; discriminate).
  unfold bind.
  destruct (get_scraper_config endpoint instance m) as [[cfg|e] m1] eqn:Hget;
    try discriminate.
  case_decide; [unfold raise; discriminate|].
  intros _. exists endpoint, cfg, m1. repeat split; assumption.
Qed.

(** C9: the failure of C2 does not undo the build.  An endpoint that
    was not in the map, for which the builder returns a configuration
    with an empty [metrics_mapper], is in the map, bound to that
    configuration, in the machine in which [check] raises. *)
Theorem check_failure_keeps_built_config instance endpoint cfg w m :
  instance !! "prometheus_url" = Some (PyStr endpoint) ->
  config_map (self m) !! endpoint = None ->
  create_mixin_configuration instance (default_instances (self m))
    (default_namespace (self m)) (world m) = (Ok cfg, w) ->
  metrics_mapper cfg = ∅ ->
  exists m',
    check instance m =
      (Raise (CheckException
         ("You have to collect at least one metric from the endpoint: "
            +:+ endpoint)), m')
    /\ config_map (self m') = <[endpoint := cfg]> (config_map (self m))
    /\ config_map (self m') !! endpoint = Some cfg
    /\ config_map (self m') <> config_map (self m).
Proof.
  intros Hurl Hmiss Hbuild Hempty.
  pose proof (get_scraper_config_miss _ _ _ _ _ Hmiss Hbuild) as Hget.
  eexists. split.
  { unfold check. rewrite Hurl. simpl. unfold bind. rewrite Hget.
    rewrite decide_True by assumption. reflexivity. }
  simpl. split; [reflexivity|]. split; [apply lookup_insert_eq|].
  intros Heq. rewrite <- Heq, lookup_insert_eq in Hmiss. discriminate.
Qed.

(** ** [__init__] *)

(** C10: with a non-empty [instances] list the constructor never
    returns.  When the [AgentCheck] constructor returns, the first
    iteration of the set-up loop raises the [TypeError] of a call that
    lacks the [instance] argument, with the configuration map still
    empty; when the [AgentCheck] constructor raises, that exception is
    the outcome.  In both cases the only logged call is the one to the
    [AgentCheck] constructor, so the builder has not run. *)
Theorem init_fails_on_first_instance
    (name : string) (init_config agentConfig : dict)
    instance (rest : list dict) (defaults : gmap string dict)
    (default_ns : option string) m :
  __init__ name init_config agentConfig (Some (instance :: rest))
           defaults default_ns m =
    (match agent_check_init name init_config agentConfig
             (Some (instance :: rest)) (world m) with
     | (Ok _, w) =>
         (Raise (TypeError
            "get_scraper_config() missing 1 required positional argument: 'instance'"),
          Machine (Coordinator ∅ defaults default_ns (NAMESPACE (self m))) w
                  (calls m ++ [CallAgentInit name init_config agentConfig
                                             (Some (instance :: rest))]))
     | (Raise e, w) =>
         (Raise e,
          Machine (self m) w
                  (calls m ++ [CallAgentInit name init_config agentConfig
                                             (Some (instance :: rest))]))
     end)
  /\ fst (__init__ name init_config agentConfig (Some (instance :: rest))
                   defaults default_ns m) <> Ok tt
  /\ count_calls is_create
       (added m (snd (__init__ name init_config agentConfig
                               (Some (instance :: rest))
                               defaults default_ns m))) = 0.
Proof.
  unfold __init__, super_init, bind, extern, added.
  destruct (agent_check_init name init_config agentConfig
              (Some (instance :: rest)) (world m)) as [[[]|e] w]; simpl;
    rewrite drop_app_length; repeat split; discriminate.
Qed.

(** With no instance to set up, the constructor returns when the
    [AgentCheck] constructor does, leaving an empty map. *)
Lemma init_without_instances
    (name : string) (init_config agentConfig : dict)
    (defaults : gmap string dict) (default_ns : option string) m w :
  agent_check_init name init_config agentConfig (Some []) (world m)
    = (Ok tt, w) ->
  __init__ name init_config agentConfig (Some []) defaults default_ns m =
    (Ok tt,
     Machine (Coordinator ∅ defaults default_ns (NAMESPACE (self m))) w
             (calls m ++ [CallAgentInit name init_config agentConfig
                                        (Some [])])).
Proof.
  intros Hsuper. unfold __init__, super_init, bind, extern.
  rewrite Hsuper. reflexivity.
Qed.

(** ** The submission paths *)

(** What a submission does, by the outcome of [_metric_tags]: one call
    to the primitive of its kind under the namespaced name, or the
    exception and nothing else. *)
Lemma submit_outcome (kind : submission_kind) (metric_name : string)
    (val : Val) (mt : metric) (arg : tags_argument)
    (hostname : option string) m :
  submit kind metric_name val mt arg hostname m =
    match _metric_tags metric_name val mt arg hostname with
    | Ok tags =>
        host_primitive kind (NAMESPACE (self m) +:+ "." +:+ metric_name)
                       val tags hostname m
    | Raise e => (Raise e, m)
    end.
Proof.
  destruct kind; simpl;
    unfold _submit_rate, _submit_gauge, _submit_monotonic_count, bind,
      lift_result, namespaced, get_self, ret, rate, gauge, monotonic_count;
    destruct (_metric_tags metric_name val mt arg hostname); reflexivity.
Qed.

Lemma submit_added (kind : submission_kind) (metric_name : string)
    (val : Val) (mt : metric) (arg : tags_argument)
    (hostname : option string) m :
  added m (snd (submit kind metric_name val mt arg hostname m)) =
    match _metric_tags metric_name val mt arg hostname with
    | Ok tags =>
        [CallSubmit kind (NAMESPACE (self m) +:+ "." +:+ metric_name)
                    val tags hostname]
    | Raise _ => []
    end.
Proof.
  rewrite submit_outcome. unfold added.
  destruct (_metric_tags metric_name val mt arg hostname).
  - unfold host_primitive. rewrite extern_calls. apply drop_app_length.
  - simpl. apply drop_all.
Qed.

Lemma submit_self (kind : submission_kind) (metric_name : string)
    (val : Val) (mt : metric) (arg : tags_argument)
    (hostname : option string) m :
  self (snd (submit kind metric_name val mt arg hostname m)) = self m.
Proof.
  rewrite submit_outcome.
  destruct (_metric_tags metric_name val mt arg hostname);
    [apply extern_self | reflexivity].
Qed.

(** ** The configuration map over the life of a coordinator *)

(** A host call leaves the coordinator alone or is, for the
    coordinator, a [get_scraper_config] on the endpoint it asks for. *)
Lemma serve_self (c : method_call Val) m :
  self (serve c m) = self m \/
  exists endpoint instance,
    requested c = {[ endpoint ]} /\
    self (serve c m) = self (snd (get_scraper_config endpoint instance m)).
Proof.
  destruct c as [instance | endpoint instance | kind n v mt arg h | args kw];
    simpl.
  - rewrite check_self.
    destruct (instance !! "prometheus_url") as [[| endpoint | l]|]; simpl;
      eauto.
  - eauto.
  - left. apply submit_self.
  - left. apply extern_self.
Qed.

Lemma serve_keeps (c : method_call Val) m e cfg :
  config_map (self m) !! e = Some cfg ->
  config_map (self (serve c m)) !! e = Some cfg.
Proof.
  intros Hin. destruct (serve_self c m) as [-> | (endpoint & i & _ & ->)].
  - assumption.
  - now apply get_scraper_config_keeps.
Qed.

Lemma serve_dom (c : method_call Val) m :
  dom (config_map (self (serve c m)))
    ⊆ dom (config_map (self m)) ∪ requested c.
Proof.
  destruct (serve_self c m) as [-> | (endpoint & i & -> & ->)].
  - apply union_subseteq_l.
  - apply get_scraper_config_dom.
Qed.

Lemma serve_all_keeps cs : forall m e cfg,
  config_map (self m) !! e = Some cfg ->
  config_map (self (serve_all cs m)) !! e = Some cfg.
Proof.
  induction cs as [|c cs IH]; intros m e cfg Hin; simpl.
  - assumption.
  - apply IH. now apply serve_keeps.
Qed.

Lemma serve_all_dom cs : forall m,
  dom (config_map (self (serve_all cs m)))
    ⊆ dom (config_map (self m)) ∪ requested_all cs.
Proof.
  induction cs as [|c cs IH]; intros m; unfold requested_all; simpl.
  - apply union_subseteq_l.
  - etransitivity; [apply IH|]. fold (requested_all cs).
    apply union_least.
    + etransitivity; [apply serve_dom|].
      apply union_mono_l, union_subseteq_l.
    + etransitivity; [|apply union_subseteq_r]. apply union_subseteq_r.
Qed.

(** C3: [get_scraper_config] is get-or-create on the endpoint string.
    (1) On a stored endpoint it returns the stored configuration and
    leaves the machine untouched, so the builder is not called.  (2) On
    a new endpoint it calls the builder once and, when the builder
    returns, stores the result under the endpoint and returns it.
    (3) After a call that returned a configuration, and after any
    sequence of further host calls, a call with the same endpoint, for
    any instance record, returns that configuration again without a
    call to the builder.  (4) Over any sequence of host calls an entry
    of the map is neither removed nor replaced.  (5) The keys added by a
    sequence of host calls are among the endpoints it asked for; the
    map, a finite map, has one entry for each. *)
Theorem get_scraper_config_get_or_create endpoint instance instance' m cs :
  (forall cfg,
     config_map (self m) !! endpoint = Some cfg ->
     get_scraper_config endpoint instance m = (Ok cfg, m))
  /\ (forall cfg w,
     config_map (self m) !! endpoint = None ->
     create_mixin_configuration instance (default_instances (self m))
       (default_namespace (self m)) (world m) = (Ok cfg, w) ->
     get_scraper_config endpoint instance m =
       (Ok cfg,
        Machine (Coordinator (<[endpoint := cfg]> (config_map (self m)))
                             (default_instances (self m))
                             (default_namespace (self m))
                             (NAMESPACE (self m)))
                w
                (calls m ++ [CallCreate instance (default_instances (self m))
                                        (default_namespace (self m))])))
  /\ (forall cfg m1,
     get_scraper_config endpoint instance m = (Ok cfg, m1) ->
     get_scraper_config endpoint instance' (serve_all cs m1)
       = (Ok cfg, serve_all cs m1))
  /\ (forall e cfg,
     config_map (self m) !! e = Some cfg ->
     config_map (self (serve_all cs m)) !! e = Some cfg)
  /\ dom (config_map (self (serve_all cs m)))
       ⊆ dom (config_map (self m)) ∪ requested_all cs.
Proof.
  split; [|split; [|split; [|split]]].
  - intros cfg. apply get_scraper_config_hit.
  - intros cfg w. apply get_scraper_config_miss.
  - intros cfg m1 Hget. apply get_scraper_config_hit.
    apply serve_all_keeps. eapply get_scraper_config_returns. exact Hget.
  - intros e cfg. apply serve_all_keeps.
  - apply serve_all_dom.
Qed.

End Properties.

(** ** Tags *)

Section Tags.

Context {World Val : Type}.
Context {collab : Collaborators World Val}.

Implicit Types (m : machine World Val) (mt : metric) (val : Val).
Implicit Types (hostname : option string) (metric_name : string).

(** C7: the [_finalize_tags_to_submit] of the class returns the tag
    list it is given, whatever the other arguments are; so does the
    hook of the class with nothing overridden. *)
Theorem finalize_tags_is_identity (_tags : list string) metric_name val mt
    (custom : option (list string)) hostname :
  _finalize_tags_to_submit _tags metric_name val mt custom hostname = _tags
  /\ @finalize_tags_hook Val base_class _tags metric_name val mt custom hostname
       = Ok _tags.
Proof. split; reflexivity. Qed.

(** With nothing overridden, [_metric_tags] on a configuration returns
    the custom tags followed by the tags of the labels. *)
Lemma metric_tags_base metric_name val mt cfg hostname :
  _metric_tags (subclass := base_class) metric_name val mt (ArgConfig cfg)
               hostname
    = Ok (label_tags cfg (label mt) (custom_tags cfg)).
Proof. reflexivity. Qed.

(** C4: for a sample whose labels are [instance = a] and [job = x], in
    either order, and a configuration with [exclude_labels = [job]],
    [labels_mapper = {instance: host}] and [custom_tags = [env:prod]],
    [_metric_tags] returns a list whose set of elements is
    [{env:prod, host:a}]; the list has these two tags once each, and no
    tag starting with [job:]. *)
Theorem metric_tags_example (mapper : gmap string string) (ns url : string)
    metric_name val hostname (labels : list Label.t) :
  labels ≡ₚ [Label.Build "instance" "a"; Label.Build "job" "x"] ->
  exists tags,
    _metric_tags (subclass := base_class) metric_name val (Metric labels)
      (ArgConfig {| metrics_mapper := mapper;
                    custom_tags := ["env:prod"];
                    exclude_labels := ["job"];
                    labels_mapper := {[ "instance" := "host" ]};
                    namespace := ns;
                    prometheus_url := url |})
      hostname = Ok tags
    /\ list_to_set tags =@{gset string} {[ "env:prod"; "host:a" ]}
    /\ tags ≡ₚ ["env:prod"; "host:a"]
    /\ Forall (fun t => String.prefix "job:" t = false) tags.
Proof.
  intros Hperm. symmetry in Hperm.
  apply Permutation_length_2_inv in Hperm.
  exists ["env:prod"; "host:a"].
  split; [destruct Hperm as [-> | ->]; vm_compute; reflexivity|].
  split; [|split].
  - simpl. rewrite (right_id_L ∅ (∪)). reflexivity.
  - reflexivity.
  - repeat constructor.
Qed.

Context {subclass : Overrides Val}.

(** C5, at the call the claim names: [_submit_gauge] with the fourth
    argument left at its default [None], for any sample, value,
    namespace and subclass, raises the [TypeError] of subscripting
    [None] (line 108) and leaves the machine as it was: no gauge is
    emitted.  A list of tags in that position, which is what the
    docstring describes, raises as well. *)
Theorem submit_gauge_default_argument_raises metric_name val mt hostname
    (tags : list string) m :
  _submit_gauge metric_name val mt ArgNone hostname m
    = (Raise (TypeError "'NoneType' object is not subscriptable"), m)
  /\ _submit_gauge metric_name val mt (ArgTags tags) hostname m
    = (Raise (TypeError "list indices must be integers or slices, not str"), m)
  /\ added m (snd (_submit_gauge metric_name val mt ArgNone hostname m)) = []
  /\ added m (snd (_submit_gauge metric_name val mt (ArgTags tags) hostname m))
       = [].
Proof.
  repeat split; try reflexivity; unfold added; simpl; apply drop_all.
Qed.

(** C8: a submission of any kind logs at most one call, to the
    primitive of its kind, and the tags of that call are what the hook
    returned for the list built from the custom tags and the labels.
    With a hook that appends one fixed tag, the tags of the call are the
    tags computed by the class with nothing overridden, followed by that
    tag. *)
Theorem hook_applies_to_every_submission (extra : string)
    (kind : submission_kind) metric_name val mt (arg : tags_argument)
    hostname m :
  added m (snd (submit kind metric_name val mt arg hostname m)) =
    match arg with
    | ArgConfig cfg =>
        match finalize_tags_hook (label_tags cfg (label mt) (custom_tags cfg))
                metric_name val mt (Some (custom_tags cfg)) hostname with
        | Ok tags =>
            [CallSubmit kind (NAMESPACE (self m) +:+ "." +:+ metric_name)
                        val tags hostname]
        | Raise _ => []
        end
    | _ => []
    end
  /\ added m (snd (submit (subclass := appending_subclass extra)
                          kind metric_name val mt arg hostname m)) =
    match _metric_tags (subclass := base_class) metric_name val mt arg
                       hostname with
    | Ok computed =>
        [CallSubmit kind (NAMESPACE (self m) +:+ "." +:+ metric_name)
                    val (computed ++ [extra]) hostname]
    | Raise _ => []
    end.
Proof.
  split; rewrite submit_added; destruct arg; reflexivity.
Qed.

(** On a configuration, and when the hook returns, a submission is
    exactly one call to the primitive of its kind. *)
Lemma submit_with_config (kind : submission_kind) metric_name val mt cfg
    hostname (tags : list string) m :
  finalize_tags_hook (label_tags cfg (label mt) (custom_tags cfg))
    metric_name val mt (Some (custom_tags cfg)) hostname = Ok tags ->
  submit kind metric_name val mt (ArgConfig cfg) hostname m
    = host_primitive kind (NAMESPACE (self m) +:+ "." +:+ metric_name)
                     val tags hostname m.
Proof.
  intros Hhook. rewrite submit_outcome. simpl. rewrite Hhook. reflexivity.
Qed.

End Tags.

(** * The class on the scripted collaborators *)

Module Run.

Import Scripted.

(** The example configuration is checked with one build and one pass. *)
Example check_foobar :
  fst (check (collab := collaborators) foobar (fresh "foobar")) = Ok tt
  /\ calls (snd (check (collab := collaborators) foobar (fresh "foobar")))
     = [CallCreate foobar ∅ None; CallProcess url (build foobar 0) true].
Proof. split; vm_compute; reflexivity. Qed.

(** A record whose [prometheus_url] is a list cannot be used as a key. *)
Example check_list_url :
  check (collab := collaborators)
        {[ "prometheus_url" := PyList [url] ]} (fresh "foobar")
    = (Raise (TypeError "unhashable type: 'list'"), fresh "foobar").
Proof. vm_compute. reflexivity. Qed.

(** The gauge of the spec's example, given the configuration. *)
Example submit_gauge_up :
  _submit_gauge (collab := collaborators) (subclass := base_class)
                "up" 1%Z sample (ArgConfig tagging) None (fresh "foo")
    = (Ok tt,
       Machine (self (fresh "foo")) 0
               [CallSubmit Gauge "foo.up" 1%Z ["env:prod"; "host:a"] None]).
Proof. vm_compute. reflexivity. Qed.

(** The same call without the configuration. *)
Example submit_gauge_up_default :
  _submit_gauge (collab := collaborators) (subclass := base_class)
                "up" 1%Z sample ArgNone None (fresh "foo")
    = (Raise (TypeError "'NoneType' object is not subscriptable"),
       fresh "foo").
Proof. vm_compute. reflexivity. Qed.

(** Two builds for one endpoint would differ; the second call does not
    build. *)
Example second_call_is_cached :
  build foobar 0 <> build foobar 1
  /\ fst (get_scraper_config (collab := collaborators) url foobar
            (snd (get_scraper_config (collab := collaborators) url foobar
                                     (fresh "foobar"))))
     = Ok (build foobar 0).
Proof. split; [discriminate | vm_compute; reflexivity]. Qed.

Lemma check_without_prometheus_url_witness :
  no_url !! "prometheus_url" = None
  /\ check (collab := collaborators) no_url (fresh "foobar") =
       (Raise (CheckException "Unable to find prometheus URL in config file."),
        fresh "foobar").
Proof.
  split; [vm_compute; reflexivity|].
  apply (check_without_prometheus_url (collab := collaborators)
           no_url (fresh "foobar")).
  vm_compute. reflexivity.
Defined.

Lemma check_empty_metrics_mapper_witness :
  metrics_mapper (build foobar_no_metrics 0) = ∅
  /\ check (collab := collaborators) foobar_no_metrics (fresh "foobar") =
       (Raise (CheckException
          ("You have to collect at least one metric from the endpoint: "
             +:+ url)),
        snd (get_scraper_config (collab := collaborators) url
                                foobar_no_metrics (fresh "foobar"))).
Proof.
  split; [vm_compute; reflexivity|].
  apply (check_empty_metrics_mapper (collab := collaborators)
           foobar_no_metrics url (build foobar_no_metrics 0) (fresh "foobar"));
    vm_compute; reflexivity.
Defined.

Lemma check_processes_once_witness :
  metrics_mapper (build foobar 0) <> ∅
  /\ check (collab := collaborators) foobar (fresh "foobar") =
       process_pass (collab := collaborators) url (build foobar 0) true
         (snd (get_scraper_config (collab := collaborators) url foobar
                                  (fresh "foobar"))).
Proof.
  assert (metrics_mapper (build foobar 0) <> ∅) as Hmapped.
  { intros Heq. apply (f_equal (fun mp => mp !! "bar")) in Heq.
    vm_compute in Heq. discriminate. }
  split; [exact Hmapped|].
  apply (check_processes_once (collab := collaborators)
           foobar url (build foobar 0) (fresh "foobar"));
    [vm_compute; reflexivity | vm_compute; reflexivity | exact Hmapped].
Defined.

Lemma check_failure_keeps_built_config_witness :
  config_map (self (fresh "foobar")) !! url = None
  /\ exists m',
       check (collab := collaborators) foobar_no_metrics (fresh "foobar") =
         (Raise (CheckException
            ("You have to collect at least one metric from the endpoint: "
               +:+ url)), m')
       /\ config_map (self m') !! url = Some (build foobar_no_metrics 0).
Proof.
  split; [vm_compute; reflexivity|].
  destruct (check_failure_keeps_built_config (collab := collaborators)
              foobar_no_metrics url (build foobar_no_metrics 0) 1
              (fresh "foobar"))
    as (m' & Hcheck & _ & Hstored & _);
    try (vm_compute; reflexivity).
  exists m'. split; assumption.
Defined.

Lemma get_scraper_config_get_or_create_witness :
  let m1 := snd (get_scraper_config (collab := collaborators) url foobar
                                    (fresh "foobar")) in
  let later :=
    serve_all (collab := collaborators) (subclass := base_class)
      [DoCheck foobar_no_metrics;
       DoSubmit Gauge "up" 1%Z sample ArgNone None;
       DoGetScraperConfig "http://other/endpoint" foobar] m1 in
  get_scraper_config (collab := collaborators) url foobar_no_metrics later
    = (Ok (build foobar 0), later).
Proof.
  intros m1 later.
  apply (proj1 (proj2 (proj2
    (get_scraper_config_get_or_create (collab := collaborators)
       (subclass := base_class) url foobar foobar_no_metrics (fresh "foobar")
       [DoCheck foobar_no_metrics;
        DoSubmit Gauge "up" 1%Z sample ArgNone None;
        DoGetScraperConfig "http://other/endpoint" foobar])))).
  vm_compute. reflexivity.
Defined.

Lemma metric_tags_example_witness :
  exists tags,
    _metric_tags (subclass := base_class) "up" 1%Z
      (Metric [Label.Build "job" "x"; Label.Build "instance" "a"])
      (ArgConfig tagging) None = Ok tags
    /\ list_to_set tags =@{gset string} {[ "env:prod"; "host:a" ]}
    /\ tags ≡ₚ ["env:prod"; "host:a"]
    /\ Forall (fun t => String.prefix "job:" t = false) tags.
Proof.
  apply (metric_tags_example (Val := Z) {[ "up" := "up" ]} "foo" url "up" 1%Z
           None [Label.Build "job" "x"; Label.Build "instance" "a"]).
  apply perm_swap.
Defined.

End Run.

(** * Further properties of the class *)

(** ** The tag list built by [_metric_tags] *)

Section TagList.

Context {Val : Type}.

Implicit Types (cfg : scraper_config) (labels : list Label.t).
Implicit Types (acc : list string) (l : Label.t).

(** The loop appends to what it is given the tags of the labels, in the
    order of the labels. *)
Lemma label_tags_comprehension cfg labels : forall acc,
  label_tags cfg labels acc = acc ++ omap (label_tag cfg) labels.
Proof.
  induction labels as [|l labels IH]; intros acc; simpl.
  - now rewrite app_nil_r.
  - unfold label_tag at 1. case_decide.
    + apply IH.
    + rewrite IH, <- app_assoc. simpl.
      destruct (labels_mapper cfg !! Label.name l); reflexivity.
Qed.

(** X1: with nothing overridden, [_metric_tags] on a configuration
    returns the custom tags, in their order, followed by one tag for
    each label whose name is not excluded, in the order of the labels;
    the name of a tag is the label's name, or what [labels_mapper]
    gives for it. *)
Theorem metric_tags_comprehension (metric_name : string) (val : Val)
    (mt : metric) cfg (hostname : option string) :
  _metric_tags (subclass := base_class) metric_name val mt (ArgConfig cfg)
               hostname
    = Ok (custom_tags cfg ++ omap (label_tag cfg) (label mt)).
Proof. simpl. now rewrite label_tags_comprehension. Qed.

(** X2: a tag is in the list exactly when it is one of the tags the
    loop started from or comes from a label that is not excluded. *)
Theorem label_tags_membership cfg labels acc (t : string) :
  t ∈ label_tags cfg labels acc <->
  t ∈ acc \/
  exists l, l ∈ labels /\ (Label.name l ∉ exclude_labels cfg) /\
    t = (default (Label.name l) (labels_mapper cfg !! Label.name l)
           +:+ ":" +:+ Label.value l).
Proof.
  rewrite label_tags_comprehension, elem_of_app, list_elem_of_omap.
  split; intros [Hacc | (l & Hl & Htag)]; try (left; assumption); right;
    exists l; unfold label_tag in *; case_decide; try discriminate.
  - injection Htag as <-. repeat split; assumption.
  - destruct Htag as [Hex _]. contradiction.
  - destruct Htag as [_ ->]. split; [assumption | reflexivity].
Qed.

(** X3: the list starts with the tags the loop started from and has
    one more tag for each label that is not excluded; labels and custom
    tags that repeat are kept as often as they occur. *)
Theorem label_tags_length cfg labels acc :
  acc `prefix_of` label_tags cfg labels acc
  /\ length (label_tags cfg labels acc) =
       length acc
       + length (filter (fun l => Label.name l ∉ exclude_labels cfg) labels)
  /\ length (label_tags cfg labels acc) <= length acc + length labels.
Proof.
  rewrite label_tags_comprehension, length_app.
  assert (length (omap (label_tag cfg) labels) =
          length (filter (fun l => Label.name l ∉ exclude_labels cfg) labels))
    as Hlen.
  { induction labels as [|l labels IH]; [reflexivity|].
    simpl. rewrite filter_cons. unfold label_tag at 1.
    destruct (decide (Label.name l ∈ exclude_labels cfg)) as [Hin|Hout].
    - rewrite decide_False by (intros Hn; apply Hn, Hin). exact IH.
    - rewrite decide_True by exact Hout. simpl. f_equal. exact IH. }
  split; [apply prefix_app_r; reflexivity|]. split; [now rewrite Hlen|].
  rewrite Hlen. pose proof (length_filter
    (fun l => Label.name l ∉ exclude_labels cfg) labels). lia.
Qed.

(** X4: running the loop over two runs of labels one after the other is
    running it over their concatenation. *)
Theorem label_tags_app cfg (labels1 labels2 : list Label.t) acc :
  label_tags cfg (labels1 ++ labels2) acc
    = label_tags cfg labels2 (label_tags cfg labels1 acc).
Proof.
  rewrite !label_tags_comprehension, omap_app, app_assoc. reflexivity.
Qed.

(** X5: with no excluded label and no renaming, every label gives the
    tag [name:value]. *)
Theorem label_tags_plain cfg labels acc :
  exclude_labels cfg = [] ->
  labels_mapper cfg = ∅ ->
  label_tags cfg labels acc
    = acc ++ ((fun l => Label.name l +:+ ":" +:+ Label.value l) <$> labels).
Proof.
  intros Hex Hmap. rewrite label_tags_comprehension. f_equal.
  induction labels as [|l labels IH]; [reflexivity|].
  simpl. unfold label_tag at 1. rewrite Hex, Hmap.
  rewrite decide_False by apply not_elem_of_nil.
  rewrite lookup_empty. simpl. f_equal. exact IH.
Qed.

(** X6: when every label is excluded the list is the one the loop
    started from; in particular a sample without labels is tagged with
    the custom tags alone. *)
Theorem label_tags_all_excluded cfg labels acc :
  Forall (fun l => Label.name l ∈ exclude_labels cfg) labels ->
  label_tags cfg labels acc = acc.
Proof.
  intros Hall. rewrite label_tags_comprehension.
  induction Hall as [|l labels Hl _ IH]; simpl.
  - apply app_nil_r.
  - unfold label_tag at 1. rewrite decide_True by exact Hl. exact IH.
Qed.

(** X7: exclusion looks at the name the label has in the sample, not at
    the name it is given by [labels_mapper]: a label that is not
    excluded and is renamed yields its tag under the new name, whatever
    the new name is, also one listed in [exclude_labels]. *)
Theorem label_tags_rename_after_exclusion cfg labels acc l
    (renamed : string) :
  l ∈ labels ->
  Label.name l ∉ exclude_labels cfg ->
  labels_mapper cfg !! Label.name l = Some renamed ->
  (renamed +:+ ":" +:+ Label.value l) ∈ label_tags cfg labels acc.
Proof.
  intros Hl Hout Hmap.
  rewrite label_tags_comprehension, elem_of_app, list_elem_of_omap.
  right. exists l. split; [assumption|].
  unfold label_tag. rewrite decide_False by assumption.
  rewrite Hmap. reflexivity.
Qed.

End TagList.

(** ** [check], the constructor and the submissions at their edges *)

Section Edges.

Context {World Val : Type}.
Context {collab : Collaborators World Val} {subclass : Overrides Val}.

Implicit Types (m : machine World Val) (instance : dict) (endpoint : string).
Implicit Types (cfg : scraper_config) (cs : list (method_call Val)).

(** [check] on a record that names an endpoint. *)
Lemma check_with_url instance endpoint m :
  instance !! "prometheus_url" = Some (PyStr endpoint) ->
  check instance m =
    match get_scraper_config endpoint instance m with
    | (Ok cfg, m1) =>
        if decide (metrics_mapper cfg = ∅) then
          (Raise (CheckException
             ("You have to collect at least one metric from the endpoint: "
                +:+ endpoint)), m1)
        else process_pass endpoint cfg true m1
    | (Raise e, m1) => (Raise e, m1)
    end.
Proof.
  intros Hurl. unfold check. rewrite Hurl. simpl. unfold bind.
  destruct (get_scraper_config endpoint instance m) as [[cfg|e] m1];
    [case_decide|]; reflexivity.
Qed.

(** X8: a [prometheus_url] that is a list is not reported as a
    configuration error: hashing it for the map lookup raises
    [TypeError], before the builder or the pass is called. *)
Theorem check_unhashable_url instance (l : list string) m :
  instance !! "prometheus_url" = Some (PyList l) ->
  check instance m = (Raise (TypeError "unhashable type: 'list'"), m).
Proof. intros Hurl. unfold check. rewrite Hurl. reflexivity. Qed.

(** X10: when the builder raises on a new endpoint, [check] raises the
    same exception; the builder was called once, the pass was not, and
    the endpoint is still absent from the map, so that the next [check]
    builds again. *)
Theorem check_builder_failure instance endpoint (e : exn) (w : World) m :
  instance !! "prometheus_url" = Some (PyStr endpoint) ->
  config_map (self m) !! endpoint = None ->
  create_mixin_configuration instance (default_instances (self m))
    (default_namespace (self m)) (world m) = (Raise e, w) ->
  check instance m =
    (Raise e,
     Machine (self m) w
             (calls m ++ [CallCreate instance (default_instances (self m))
                                     (default_namespace (self m))]))
  /\ config_map (self (snd (check instance m))) !! endpoint = None
  /\ added m (snd (check instance m))
     = [CallCreate instance (default_instances (self m))
                   (default_namespace (self m))].
Proof.
  intros Hurl Hmiss Hbuild.
  assert (check instance m =
    (Raise e,
     Machine (self m) w
             (calls m ++ [CallCreate instance (default_instances (self m))
                                     (default_namespace (self m))]))) as Heq.
  { rewrite (check_with_url _ _ _ Hurl).
    now rewrite (get_scraper_config_miss_raise _ _ _ _ _ Hmiss Hbuild). }
  rewrite Heq. repeat split; simpl; [assumption|].
  unfold added. simpl. apply drop_app_length.
Qed.

(** X11: a stored configuration with an empty [metrics_mapper] makes
    the endpoint fail for good: after any sequence of host calls, a
    [check] of any record with that endpoint raises the configuration
    error of line 53 and calls no collaborator, whatever the record now
    lists. *)
Theorem check_failure_is_permanent instance endpoint cfg cs m :
  instance !! "prometheus_url" = Some (PyStr endpoint) ->
  config_map (self m) !! endpoint = Some cfg ->
  metrics_mapper cfg = ∅ ->
  check instance (serve_all cs m) =
    (Raise (CheckException
       ("You have to collect at least one metric from the endpoint: "
          +:+ endpoint)), serve_all cs m).
Proof.
  intros Hurl Hstored Hempty.
  rewrite (check_with_url _ _ _ Hurl).
  rewrite (get_scraper_config_hit endpoint instance cfg (serve_all cs m))
    by now apply serve_all_keeps.
  now rewrite decide_True.
Qed.

(** X12: once a [check] got as far as the pass, every later [check] of
    a record with the same endpoint, after any sequence of host calls,
    is exactly the pass on the configuration built the first time: no
    second build, and nothing else of the later record is read. *)
Theorem check_again_reuses_config instance instance' endpoint cfg cs m m1 :
  instance !! "prometheus_url" = Some (PyStr endpoint) ->
  instance' !! "prometheus_url" = Some (PyStr endpoint) ->
  get_scraper_config endpoint instance m = (Ok cfg, m1) ->
  metrics_mapper cfg <> ∅ ->
  check instance' (serve_all cs (snd (check instance m)))
    = process_pass endpoint cfg true (serve_all cs (snd (check instance m))).
Proof.
  intros Hurl Hurl' Hget Hmapped.
  rewrite (check_with_url _ _ _ Hurl').
  rewrite (get_scraper_config_hit endpoint instance' cfg).
  - now rewrite decide_False.
  - apply serve_all_keeps. rewrite check_self, Hurl. simpl. rewrite Hget.
    simpl. eapply get_scraper_config_returns. exact Hget.
Qed.

(** *** The constructor *)

(** X18: the constructor returns exactly when [instances] is the empty
    list and the [AgentCheck] constructor returns; the coordinator then
    has an empty map and the defaults it was given. *)
Theorem init_returns_iff
    (name : string) (init_config agentConfig : dict)
    (instances : option (list dict)) (defaults : gmap string dict)
    (default_ns : option string) m :
  (fst (__init__ name init_config agentConfig instances defaults
                 default_ns m) = Ok tt
   <-> instances = Some [] /\
       fst (agent_check_init name init_config agentConfig instances
                             (world m)) = Ok tt)
  /\ (fst (__init__ name init_config agentConfig instances defaults
                    default_ns m) = Ok tt ->
      self (snd (__init__ name init_config agentConfig instances defaults
                          default_ns m))
        = Coordinator ∅ defaults default_ns (NAMESPACE (self m))).
Proof.
  unfold __init__, super_init, bind, extern.
  destruct (agent_check_init name init_config agentConfig instances (world m))
    as [[[]|e] w]; destruct instances as [[|i rest]|]; simpl;
    (split; [split; [intros H | intros [H1 H2]] | intros H]);
    try discriminate; try reflexivity; try (split; reflexivity).
Qed.

(** X19: with [instances] left at its default [None] the constructor
    raises: iterating [None] is a [TypeError], raised after the three
    attributes are set. *)
Theorem init_default_instances_raises
    (name : string) (init_config agentConfig : dict)
    (defaults : gmap string dict) (default_ns : option string) m (w : World) :
  agent_check_init name init_config agentConfig None (world m) = (Ok tt, w) ->
  __init__ name init_config agentConfig None defaults default_ns m =
    (Raise (TypeError "'NoneType' object is not iterable"),
     Machine (Coordinator ∅ defaults default_ns (NAMESPACE (self m))) w
             (calls m ++ [CallAgentInit name init_config agentConfig None])).
Proof.
  intros Hsuper. unfold __init__, super_init, bind, extern.
  rewrite Hsuper. reflexivity.
Qed.

(** *** Submissions *)

(** X20: each of the three submission paths raises [TypeError], and
    emits nothing, when its fourth argument is [None] or a list of
    tags. *)
Theorem submit_without_config_raises (kind : submission_kind)
    (metric_name : string) (val : Val) (mt : metric)
    (hostname : option string) (tags : list string) m :
  submit kind metric_name val mt ArgNone hostname m
    = (Raise (TypeError "'NoneType' object is not subscriptable"), m)
  /\ submit kind metric_name val mt (ArgTags tags) hostname m
    = (Raise (TypeError "list indices must be integers or slices, not str"), m).
Proof. split; rewrite submit_outcome; reflexivity. Qed.

(** X21: when the hook raises, the submission raises the same
    exception and the host API is not called. *)
Theorem submit_hook_failure (kind : submission_kind)
    (metric_name : string) (val : Val) (mt : metric) cfg
    (hostname : option string) (e : exn) m :
  finalize_tags_hook (label_tags cfg (label mt) (custom_tags cfg))
    metric_name val mt (Some (custom_tags cfg)) hostname = Raise e ->
  submit kind metric_name val mt (ArgConfig cfg) hostname m = (Raise e, m).
Proof.
  intros Hhook. rewrite submit_outcome. simpl. now rewrite Hhook.
Qed.

(** X22: when the host primitive raises, the submission raises the same
    exception; the call was made once and the coordinator is as
    before. *)
Theorem submit_host_failure (kind : submission_kind)
    (metric_name : string) (val : Val) (mt : metric) cfg
    (hostname : option string) (tags : list string) (e : exn) (w : World) m :
  finalize_tags_hook (label_tags cfg (label mt) (custom_tags cfg))
    metric_name val mt (Some (custom_tags cfg)) hostname = Ok tags ->
  host_submit kind (NAMESPACE (self m) +:+ "." +:+ metric_name) val tags
              hostname (world m) = (Raise e, w) ->
  submit kind metric_name val mt (ArgConfig cfg) hostname m =
    (Raise e,
     Machine (self m) w
             (calls m ++ [CallSubmit kind
                            (NAMESPACE (self m) +:+ "." +:+ metric_name)
                            val tags hostname])).
Proof.
  intros Hhook Hhost. rewrite submit_outcome. simpl. rewrite Hhook.
  unfold host_primitive, extern. now rewrite Hhost.
Qed.

End Edges.

(** ** What a coordinator keeps over its life *)

Section Lifetime.

Context {World Val : Type}.
Context {collab : Collaborators World Val} {subclass : Overrides Val}.

Implicit Types (m : machine World Val) (instance : dict) (endpoint : string).
Implicit Types (cfg : scraper_config) (cs : list (method_call Val)).

(** X23: with nothing overridden, a submission on a configuration is
    one call to the primitive of its kind, under
    [NAMESPACE.metric_name], with the value and the hostname it was
    given and the tags of X1. *)
Theorem submit_base_class (kind : submission_kind) (metric_name : string)
    (val : Val) (mt : metric) cfg (hostname : option string) m :
  submit (subclass := base_class) kind metric_name val mt (ArgConfig cfg)
         hostname m
    = host_primitive kind (NAMESPACE (self m) +:+ "." +:+ metric_name) val
        (custom_tags cfg ++ omap (label_tag cfg) (label mt)) hostname m.
Proof.
  rewrite submit_outcome. simpl. rewrite label_tags_comprehension.
  reflexivity.
Qed.

(** *** One call *)

Lemma get_scraper_config_other endpoint instance m (e : string) :
  e <> endpoint ->
  config_map (self (snd (get_scraper_config endpoint instance m))) !! e
    = config_map (self m) !! e.
Proof.
  intros Hne. destruct (get_scraper_config_outcome endpoint instance m);
    simpl; try reflexivity.
  apply lookup_insert_ne. congruence.
Qed.

Lemma get_scraper_config_attributes endpoint instance m :
  default_instances (self (snd (get_scraper_config endpoint instance m)))
    = default_instances (self m)
  /\ default_namespace (self (snd (get_scraper_config endpoint instance m)))
    = default_namespace (self m)
  /\ NAMESPACE (self (snd (get_scraper_config endpoint instance m)))
    = NAMESPACE (self m).
Proof.
  destruct (get_scraper_config_outcome endpoint instance m); simpl;
    repeat split.
Qed.

(** What one [get_scraper_config] adds to the log and to the map. *)
Lemma get_scraper_config_step endpoint instance m :
  exists new,
    calls (snd (get_scraper_config endpoint instance m)) = calls m ++ new
    /\ Forall (fun c => is_process c = false) new
    /\ count_calls is_create new <= 1
    /\ size (config_map (self (snd (get_scraper_config endpoint instance m))))
       <= size (config_map (self m)) + count_calls is_create new.
Proof.
  destruct (get_scraper_config_outcome endpoint instance m) as [c Hc|c w Hc|e w Hc];
    simpl.
  - exists []. rewrite app_nil_r. repeat split; [constructor | | ];
      unfold count_calls; simpl; lia.
  - eexists. split; [reflexivity|]. rewrite count_calls_one. simpl.
    repeat split; [repeat constructor | lia |].
    rewrite (map_size_insert_None _ _ _ Hc). lia.
  - eexists. split; [reflexivity|]. rewrite count_calls_one. simpl.
    repeat split; [repeat constructor | lia | lia].
Qed.

Lemma count_calls_nil (p : call Val -> bool) : count_calls p [] = 0.
Proof. reflexivity. Qed.

Lemma sound_pass_not_process (me : coordinator) (new : list (call Val)) :
  Forall (fun c => is_process c = false) new ->
  Forall (sound_pass me) new /\ count_calls is_process new = 0.
Proof.
  induction 1 as [|c new Hc _ [IH1 IH2]].
  - split; [constructor | reflexivity].
  - split.
    + constructor; [|assumption]. destruct c; simpl in *;
        try exact I; discriminate.
    + change (c :: new) with ([c] ++ new).
      rewrite count_calls_app, count_calls_one, Hc, IH2. reflexivity.
Qed.

(** What one host call adds to the log and to the map. *)
Lemma serve_step (c : method_call Val) m :
  exists new,
    calls (serve c m) = calls m ++ new
    /\ Forall (sound_pass (self (serve c m))) new
    /\ count_calls is_create new <= 1
    /\ count_calls is_process new <= 1
    /\ size (config_map (self (serve c m)))
       <= size (config_map (self m)) + count_calls is_create new.
Proof.
  assert (forall endpoint instance m',
    (exists new,
       calls m' = calls (snd (get_scraper_config endpoint instance m)) ++ new
       /\ self m' = self (snd (get_scraper_config endpoint instance m))
       /\ (new = [] \/
           exists cfg, new = [CallProcess endpoint cfg true] /\
             config_map (self m') !! endpoint = Some cfg /\
             metrics_mapper cfg <> ∅)) ->
    exists new,
      calls m' = calls m ++ new
      /\ Forall (sound_pass (self m')) new
      /\ count_calls is_create new <= 1
      /\ count_calls is_process new <= 1
      /\ size (config_map (self m'))
         <= size (config_map (self m)) + count_calls is_create new) as Hget.
  { intros endpoint instance m' (tail & Hcalls & Hself & Htail).
    destruct (get_scraper_config_step endpoint instance m)
      as (new & Hnew & Hnp & Hcreate & Hsize).
    destruct (sound_pass_not_process (self m') new Hnp) as [Hsound Hzero].
    exists (new ++ tail). rewrite Hcalls, Hnew, app_assoc, Hself.
    rewrite !count_calls_app, Hzero. rewrite Hself in Hsound.
    destruct Htail as [-> | (cfg & -> & Hstored & Hmapped)].
    - rewrite !app_nil_r, !count_calls_nil.
      split; [reflexivity|]. split; [assumption|]. lia.
    - rewrite !count_calls_one. simpl. rewrite Hself in Hstored.
      repeat split; [| lia | lia | lia].
      apply Forall_app. split; [assumption|].
      constructor; [|constructor]. simpl. repeat split; assumption. }
  destruct c as [instance | endpoint instance | kind n v mt arg h | args kw];
    simpl.
  - destruct (instance !! "prometheus_url") as [[| endpoint | l]|] eqn:Hurl;
      try (unfold check; rewrite Hurl; simpl; exists [];
           rewrite app_nil_r; unfold count_calls; simpl;
           repeat split; [constructor | lia | lia | lia]).
    apply (Hget endpoint instance).
    rewrite (check_with_url _ _ _ Hurl).
    destruct (get_scraper_config endpoint instance m) as [[cfg|e] m1] eqn:Hg;
      simpl.
    + case_decide.
      * exists []. rewrite app_nil_r. simpl. repeat split. now left.
      * unfold process_pass. rewrite extern_calls, extern_self.
        eexists. repeat split. right. exists cfg. repeat split; try assumption.
        eapply get_scraper_config_returns. exact Hg.
    + exists []. rewrite app_nil_r. repeat split. now left.
  - apply (Hget endpoint instance). exists []. rewrite app_nil_r.
    repeat split. now left.
  - rewrite submit_self. rewrite submit_outcome.
    destruct (_metric_tags n v mt arg h).
    + unfold host_primitive. rewrite extern_calls. eexists.
      split; [reflexivity|]. rewrite !count_calls_one. simpl.
      repeat split; [repeat constructor | lia | lia | lia].
    + exists []. rewrite app_nil_r. unfold count_calls. simpl.
      repeat split; [constructor | lia | lia | lia].
  - unfold _submit_service_check. rewrite extern_calls, extern_self.
    eexists. split; [reflexivity|]. rewrite !count_calls_one. simpl.
    repeat split; [repeat constructor | lia | lia | lia].
Qed.

(** *** Any sequence of calls *)

Lemma sound_pass_keeps (me me' : coordinator) (c : call Val) :
  (forall e cfg, config_map me !! e = Some cfg ->
                 config_map me' !! e = Some cfg) ->
  sound_pass me c -> sound_pass me' c.
Proof.
  intros Hkeep. destruct c; simpl; try exact id.
  intros (Htrue & Hstored & Hmapped). repeat split; auto.
Qed.

Lemma serve_all_steps cs : forall m,
  exists new,
    calls (serve_all cs m) = calls m ++ new
    /\ Forall (sound_pass (self (serve_all cs m))) new
    /\ count_calls is_create new <= length cs
    /\ count_calls is_process new <= length cs
    /\ size (config_map (self (serve_all cs m)))
       <= size (config_map (self m)) + count_calls is_create new.
Proof.
  induction cs as [|c cs IH]; intros m.
  - exists []. simpl. rewrite app_nil_r, !count_calls_nil.
    repeat split; [constructor | lia | lia | lia].
  - change (serve_all (c :: cs) m) with (serve_all cs (serve c m)).
    destruct (serve_step c m) as (n1 & Hc1 & Hs1 & Hb1 & Hp1 & Hz1).
    destruct (IH (serve c m)) as (n2 & Hc2 & Hs2 & Hb2 & Hp2 & Hz2).
    exists (n1 ++ n2). rewrite Hc2, Hc1, app_assoc, !count_calls_app.
    simpl. repeat split; [| lia | lia | lia].
    apply Forall_app. split; [|assumption].
    eapply Forall_impl; [exact Hs1|]. intros x.
    apply sound_pass_keeps. intros e cfg. apply serve_all_keeps.
Qed.

Lemma serve_all_added cs m (new : list (call Val)) :
  calls (serve_all cs m) = calls m ++ new ->
  added m (serve_all cs m) = new.
Proof. intros Heq. unfold added. rewrite Heq. apply drop_app_length. Qed.

(** X13: a sequence of host calls changes nothing about an endpoint it
    does not ask for: the entry stays, and an absent endpoint stays
    absent. *)
Theorem serve_all_frame cs : forall m (e : string),
  e ∉ requested_all cs ->
  config_map (self (serve_all cs m)) !! e = config_map (self m) !! e.
Proof.
  induction cs as [|c cs IH]; intros m e Hout; [reflexivity|].
  change (serve_all (c :: cs) m) with (serve_all cs (serve c m)).
  unfold requested_all in Hout. simpl in Hout.
  apply not_elem_of_union in Hout as [Hc Hcs].
  rewrite (IH _ _ Hcs).
  destruct (serve_self c m) as [-> | (endpoint & i & Hreq & ->)];
    [reflexivity|].
  apply get_scraper_config_other. rewrite Hreq in Hc.
  now apply not_elem_of_singleton in Hc.
Qed.

(** X14: no host call changes [default_instances],
    [default_namespace] or [NAMESPACE]. *)
Theorem serve_all_attributes cs : forall m,
  default_instances (self (serve_all cs m)) = default_instances (self m)
  /\ default_namespace (self (serve_all cs m)) = default_namespace (self m)
  /\ NAMESPACE (self (serve_all cs m)) = NAMESPACE (self m).
Proof.
  induction cs as [|c cs IH]; intros m; [repeat split|].
  change (serve_all (c :: cs) m) with (serve_all cs (serve c m)).
  destruct (IH (serve c m)) as (-> & -> & ->).
  destruct (serve_self c m) as [-> | (endpoint & i & _ & ->)];
    [repeat split|].
  apply get_scraper_config_attributes.
Qed.

(** X15: the call log only grows, and a host call adds at most one
    build and at most one scrape-and-process pass to it. *)
Theorem call_log_grows cs m :
  calls (serve_all cs m) = calls m ++ added m (serve_all cs m)
  /\ count_calls is_create (added m (serve_all cs m)) <= length cs
  /\ count_calls is_process (added m (serve_all cs m)) <= length cs.
Proof.
  destruct (serve_all_steps cs m) as (new & Hcalls & _ & Hb & Hp & _).
  rewrite (serve_all_added _ _ _ Hcalls). repeat split; assumption.
Qed.

(** X16: the map gains entries only through the builder: it grows by
    at most the number of builds logged. *)
Theorem entries_come_from_builds cs m :
  size (config_map (self (serve_all cs m)))
    <= size (config_map (self m))
       + count_calls is_create (added m (serve_all cs m)).
Proof.
  destruct (serve_all_steps cs m) as (new & Hcalls & _ & _ & _ & Hsize).
  now rewrite (serve_all_added _ _ _ Hcalls).
Qed.

(** X17: every scrape-and-process pass a sequence of host calls makes
    ignores unmapped metrics and runs on the configuration that the map
    holds, then and at the end, for the endpoint scraped; that
    configuration maps at least one metric. *)
Theorem passes_are_sound cs m :
  Forall (sound_pass (self (serve_all cs m))) (added m (serve_all cs m)).
Proof.
  destruct (serve_all_steps cs m) as (new & Hcalls & Hsound & _).
  now rewrite (serve_all_added _ _ _ Hcalls).
Qed.

End Lifetime.

(** ** The further properties on the scripted collaborators *)

Module Cases.

Import Scripted.

Lemma foobar_maps_a_metric : metrics_mapper (build foobar 0) <> ∅.
Proof.
  intros Heq. apply (f_equal (fun mp => mp !! "bar")) in Heq.
  vm_compute in Heq. discriminate.
Qed.

Lemma label_tags_plain_witness :
  label_tags (build foobar 0) (label sample) ["env:prod"]
    = ["env:prod"]
      ++ ((fun l => Label.name l +:+ ":" +:+ Label.value l) <$> label sample).
Proof.
  apply (label_tags_plain (build foobar 0) (label sample) ["env:prod"]);
    reflexivity.
Defined.

Lemma label_tags_all_excluded_witness :
  label_tags tagging [Label.Build "job" "x"; Label.Build "job" "y"]
             ["env:prod"]
    = ["env:prod"].
Proof.
  apply (label_tags_all_excluded tagging
           [Label.Build "job" "x"; Label.Build "job" "y"] ["env:prod"]).
  repeat constructor.
Defined.

Lemma label_tags_rename_after_exclusion_witness :
  ("host" +:+ ":" +:+ "a")
    ∈ label_tags {| metrics_mapper := ∅;
                    custom_tags := [];
                    exclude_labels := ["host"];
                    labels_mapper := {[ "instance" := "host" ]};
                    namespace := "foo";
                    prometheus_url := url |}
                 (label sample) [].
Proof.
  apply (label_tags_rename_after_exclusion
           {| metrics_mapper := ∅;
              custom_tags := [];
              exclude_labels := ["host"];
              labels_mapper := {[ "instance" := "host" ]};
              namespace := "foo";
              prometheus_url := url |}
           (label sample) [] (Label.Build "instance" "a") "host").
  - constructor.
  - simpl. apply not_elem_of_cons. split; [discriminate | apply not_elem_of_nil].
  - vm_compute. reflexivity.
Defined.

Lemma check_unhashable_url_witness :
  check (collab := collaborators)
        {[ "prometheus_url" := PyList [url] ]} (fresh "foobar")
    = (Raise (TypeError "unhashable type: 'list'"), fresh "foobar").
Proof.
  apply (check_unhashable_url (collab := collaborators)
           {[ "prometheus_url" := PyList [url] ]} [url] (fresh "foobar")).
  vm_compute. reflexivity.
Defined.

Lemma check_null_prometheus_url_witness :
  check (collab := collaborators)
        {[ "prometheus_url" := PyNone ]} (fresh "foobar")
    = (Raise (CheckException "Unable to find prometheus URL in config file."),
       fresh "foobar").
Proof.
  apply (check_null_prometheus_url (collab := collaborators)
           {[ "prometheus_url" := PyNone ]} (fresh "foobar")).
  vm_compute. reflexivity.
Defined.

Lemma check_builder_failure_witness :
  check (collab := Refusing.collaborators) foobar (fresh "foobar") =
    (Raise (CheckException "no namespace"),
     Machine (self (fresh "foobar")) 1 [CallCreate foobar ∅ None]).
Proof.
  apply (check_builder_failure (collab := Refusing.collaborators)
           foobar url (CheckException "no namespace") 1 (fresh "foobar"));
    vm_compute; reflexivity.
Defined.

Lemma check_failure_is_permanent_witness :
  let m := snd (check (collab := collaborators) foobar_no_metrics
                      (fresh "foobar")) in
  let later :=
    serve_all (collab := collaborators) (subclass := base_class)
      [DoCheck foobar; DoGetScraperConfig url foobar] m in
  check (collab := collaborators) foobar later =
    (Raise (CheckException
       ("You have to collect at least one metric from the endpoint: "
          +:+ url)), later).
Proof.
  intros m later.
  apply (check_failure_is_permanent (collab := collaborators)
           (subclass := base_class) foobar url (build foobar_no_metrics 0)
           [DoCheck foobar; DoGetScraperConfig url foobar] m);
    vm_compute; reflexivity.
Defined.

Lemma check_again_reuses_config_witness :
  let later :=
    serve_all (collab := collaborators) (subclass := base_class)
      [DoSubmit Rate "up" 1%Z sample (ArgConfig tagging) None]
      (snd (check (collab := collaborators) foobar (fresh "foobar"))) in
  check (collab := collaborators) foobar_no_metrics later
    = process_pass (collab := collaborators) url (build foobar 0) true later.
Proof.
  intros later.
  apply (check_again_reuses_config (collab := collaborators)
           (subclass := base_class) foobar foobar_no_metrics url
           (build foobar 0)
           [DoSubmit Rate "up" 1%Z sample (ArgConfig tagging) None]
           (fresh "foobar")
           (snd (get_scraper_config (collab := collaborators) url foobar
                                    (fresh "foobar"))));
    try (vm_compute; reflexivity).
  exact foobar_maps_a_metric.
Defined.

Lemma serve_all_frame_witness :
  config_map (self (serve_all (collab := collaborators)
                              (subclass := base_class)
                              [DoCheck foobar] (fresh "foobar")))
    !! "http://other/endpoint"
  = config_map (self (fresh "foobar")) !! "http://other/endpoint".
Proof.
  apply (serve_all_frame (collab := collaborators) (subclass := base_class)
           [DoCheck foobar] (fresh "foobar") "http://other/endpoint").
  apply (bool_decide_unpack _). vm_compute. exact I.
Defined.

Lemma init_default_instances_raises_witness :
  __init__ (collab := collaborators) "prometheus" ∅ ∅ None ∅ None
           (fresh "foobar") =
    (Raise (TypeError "'NoneType' object is not iterable"),
     Machine (Coordinator ∅ ∅ None "foobar") 0
             [CallAgentInit "prometheus" ∅ ∅ None]).
Proof.
  apply (init_default_instances_raises (collab := collaborators)
           "prometheus" ∅ ∅ ∅ None (fresh "foobar") 0).
  reflexivity.
Defined.

Lemma submit_hook_failure_witness :
  submit (collab := collaborators)
         (subclass := raising_subclass (ExternalError "no tags"))
         MonotonicCount "up" 1%Z sample (ArgConfig tagging) None (fresh "foo")
    = (Raise (ExternalError "no tags"), fresh "foo").
Proof.
  apply (submit_hook_failure (collab := collaborators)
           (subclass := raising_subclass (ExternalError "no tags"))
           MonotonicCount "up" 1%Z sample tagging None
           (ExternalError "no tags") (fresh "foo")).
  reflexivity.
Defined.

Lemma submit_host_failure_witness :
  submit (collab := Refusing.collaborators) (subclass := base_class)
         Rate "up" 1%Z sample (ArgConfig tagging) None (fresh "foo")
    = (Raise (ExternalError "aggregator closed"),
       Machine (self (fresh "foo")) 1
               [CallSubmit Rate ("foo" +:+ "." +:+ "up") 1%Z
                           ["env:prod"; "host:a"] None]).
Proof.
  apply (submit_host_failure (collab := Refusing.collaborators)
           (subclass := base_class) Rate "up" 1%Z sample tagging None
           ["env:prod"; "host:a"] (ExternalError "aggregator closed") 1
           (fresh "foo"));
    vm_compute; reflexivity.
Defined.

End Cases.
